(** * A model of [message_sender.py]: the WhatsApp template sender

    The development follows the Python class [WhatsAppSender]:
    - [clean_phone_number], a pure function on strings;
    - [send_template_message], which builds one payload, posts it once and
      turns a [requests] failure into an [Exception];
    - [process_excel], the batch loop over the rows of a data frame.

    Python strings are modelled by [string], one [ascii] per code point, so
    the model covers the strings whose code points are below 256.  Effects
    (HTTP calls, log lines, sleeps) are recorded in a trace that is threaded
    through a small state-and-exception monad; the network is an oracle that
    answers each request from the history so far. *)

From Stdlib Require Import String Ascii List Bool Arith ZArith Lia DecimalString.
Import ListNotations.
Local Open Scope string_scope.
Local Open Scope nat_scope.

(** ** Python values found in spreadsheet cells *)

Inductive pyobj : Type :=
| PyStr (s : string)        (* a text cell *)
| PyInt (n : Z)             (* an integer cell *)
| PyBool (b : bool)         (* a boolean cell *)
| PyNaN.                    (* float nan: how pandas marks an empty cell *)

(** [str(x)] *)
Definition py_str (x : pyobj) : string :=
  match x with
  | PyStr s => s
  | PyInt n => NilZero.string_of_int (Z.to_int n)
  | PyBool true => "True"
  | PyBool false => "False"
  | PyNaN => "nan"
  end.

(** [pd.notna(x)] *)
Definition notna (x : pyobj) : bool :=
  match x with
  | PyNaN => false
  | _ => true
  end.

(** ** Strings *)

(** [str.isdigit] on one character.  Python accepts every code point whose
    Unicode numeric type is Decimal or Digit; below 256 these are the ten
    characters '0'..'9' and the superscripts U+00B2, U+00B3 and U+00B9. *)
Definition str_isdigit (c : ascii) : bool :=
  let n := nat_of_ascii c in
  ((48 <=? n) && (n <=? 57)) || (n =? 178) || (n =? 179) || (n =? 185).

(** The decimal digit characters '0'..'9'. *)
Definition is_decimal_digit (c : ascii) : bool :=
  let n := nat_of_ascii c in
  (48 <=? n) && (n <=? 57).

(** Code points of the ASCII range. *)
Definition is_ascii (c : ascii) : bool := nat_of_ascii c <? 128.

(** [''.join(filter(p, s))] *)
Fixpoint join_filter (p : ascii -> bool) (s : string) : string :=
  match s with
  | EmptyString => EmptyString
  | String c rest =>
      if p c then String c (join_filter p rest) else join_filter p rest
  end.

(** [needle in haystack] for strings. *)
Fixpoint contains (needle haystack : string) : bool :=
  prefix needle haystack
  || match haystack with
     | EmptyString => false
     | String _ rest => contains needle rest
     end.

(** ** [WhatsAppSender.clean_phone_number] *)

Definition clean_phone_number (phone : pyobj) : string :=
  let clean := join_filter str_isdigit (py_str phone) in
  clean.

(** ** Dictionaries

    A Python [dict] keeps its keys in insertion order; assigning to a key that
    is already present replaces the value and leaves the key where it is. *)

Definition dict : Type := list (string * pyobj).

Fixpoint dict_set (d : dict) (k : string) (v : pyobj) : dict :=
  match d with
  | [] => [(k, v)]
  | (k', v') :: rest =>
      if String.eqb k' k then (k', v) :: rest else (k', v') :: dict_set rest k v
  end.

(** [d.values()] *)
Definition values (d : dict) : list pyobj := map snd d.

(** [if params:] with [params: dict = None]. *)
Definition truthy (params : option dict) : bool :=
  match params with
  | Some (_ :: _) => true
  | _ => false
  end.

(** [x in xs] for a list of strings. *)
Definition mem (x : string) (xs : list string) : bool :=
  existsb (String.eqb x) xs.

(** [str(n)] for a non-negative [int]. *)
Definition str_of_nat (n : nat) : string :=
  NilEmpty.string_of_uint (Nat.to_uint n).

(** ** The outbound payload: the literal [message_data] *)

Record language_t : Type := { code : string }.

Record parameter : Type := { parameter_type : string; text : string }.

Record component : Type :=
  { component_type : string; parameters : list parameter }.

Record template_t : Type :=
  { name : pyobj;
    language : language_t;
    components : option (list component) }.   (* [None]: the key is absent *)

Record message_data_t : Type :=
  { messaging_product : string;
    to : string;
    type_ : string;
    template : template_t }.

(** ** Observable effects *)

Inductive event : Type :=
| Post (url : string) (headers : list (string * string)) (json : message_data_t)
| LogInfo (msg : string)
| LogError (msg : string)
| Sleep (seconds : nat).

Definition is_post (ev : event) : bool :=
  match ev with Post _ _ _ => true | _ => false end.

Definition is_sleep (ev : event) : bool :=
  match ev with Sleep _ => true | _ => false end.

(** The requests sent and the pauses taken, as recorded in a trace. *)
Definition posts (tr : list event) : list event := filter is_post tr.
Definition sleeps (tr : list event) : list event := filter is_sleep tr.

(** ** The object [self] *)

Record WhatsAppSender : Type :=
  { access_token : string; phone_number_id : string }.

Definition base_url (self : WhatsAppSender) : string :=
  "https://graph.facebook.com/v17.0/" ++ phone_number_id self.

Definition headers (self : WhatsAppSender) : list (string * string) :=
  [("Authorization", "Bearer " ++ access_token self);
   ("Content-Type", "application/json")].

(** ** Data frames

    A row (a pandas [Series]) is only ever read through [row[col]], so it is
    modelled by that lookup. *)

Definition row_t : Type := string -> pyobj.

Record DataFrame : Type := { columns : list string; rows : list row_t }.

Definition required_columns : list string := ["phone_number"; "template_name"].

(** ** The batch summary: the dict [results] *)

Record failure : Type := { phone : pyobj; error : string }.

Record results_t : Type :=
  { successful : nat; failed : nat; failures : list failure }.

(** ** [send_template_message]: preparing the message data (lines 60-85) *)

Definition body_component (params : dict) : component :=
  {| component_type := "body";
     parameters :=
       map (fun value => {| parameter_type := "text"; text := py_str value |})
           (values params) |}.

Definition prepare_message_data
    (to_phone : string) (template_name : pyobj) (params : option dict)
  : message_data_t :=
  {| messaging_product := "whatsapp";
     to := to_phone;
     type_ := "template";
     template :=
       {| name := template_name;
          language := {| code := "en" |};
          components :=
            match params with
            | Some d =>
                if truthy params
                then Some (if truthy params then [body_component d] else [])
                else None
            | None => None
            end |} |}.

(** ** [process_excel]: the parameters of one row (lines 137-141) *)

Definition row_params (cols : list string) (row : row_t) : dict :=
  fold_left
    (fun d col =>
       if negb (mem col required_columns) && notna (row col)
       then dict_set d col (row col)
       else d)
    cols [].

(** The test of the comprehension: [col not in required_columns and
    pd.notna(row[col])], with the two required names written out. *)
Definition is_parameter (row : row_t) (col : string) : bool :=
  negb (String.eqb col "phone_number")
  && negb (String.eqb col "template_name")
  && notna (row col).

(** Exactly one counter moves in a turn, and a failure entry comes with the
    failure counter. *)
Definition one_counter_moved (before after : results_t) : Prop :=
  (successful after = successful before + 1
   /\ failed after = failed before
   /\ failures after = failures before)
  \/ (successful after = successful before
      /\ failed after = failed before + 1
      /\ exists entry, failures after = (failures before ++ [entry])%list).

(** ** The HTTP client and the effectful code

    [json] is the type of parsed JSON documents, [json_str] the text an
    f-string renders one as.  [transport] stands for the network behind
    [requests.post]: given the events so far and the payload it either
    produces a response or fails without one.  The model follows
    requests 2.27 and later, where a failure of [Response.json()] is itself
    a [RequestException]. *)

Section Sender.

Variable json : Type.
Variable json_str : json -> string.

(** What [Response.json()] does: the parsed body, or a decoding error. *)
Inductive json_result : Type :=
| Parsed (j : json)
| Unparseable (msg : string).

Record response : Type :=
  { status_code : nat;
    http_error_msg : string;      (* the text of the HTTPError for it *)
    json_body : json_result }.

Inductive post_result : Type :=
| Responded (r : response)
| ConnectionFailed (msg : string).

Variable transport : list event -> message_data_t -> post_result.

(** Exceptions; every class here derives from Python's [Exception]. *)
Inductive exn : Type :=
| ValueError (msg : string)
| RequestException (msg : string) (resp : option response)  (* [e.response] *)
| Exception (msg : string)
| OtherError (msg : string).

(** [str(e)] *)
Definition exn_str (e : exn) : string :=
  match e with
  | ValueError msg => msg
  | RequestException msg _ => msg
  | Exception msg => msg
  | OtherError msg => msg
  end.

Inductive result (A : Type) : Type :=
| Ok (a : A)
| Raise (e : exn).
Arguments Ok {A} a.
Arguments Raise {A} e.

(** Computations: the trace grows, and what was done before an exception
    stays done. *)
Definition M (A : Type) : Type := list event -> result A * list event.

Definition ret {A : Type} (a : A) : M A := fun tr => (Ok a, tr).

Definition bind {A B : Type} (m : M A) (k : A -> M B) : M B :=
  fun tr =>
    match m tr with
    | (Ok a, tr') => k a tr'
    | (Raise e, tr') => (Raise e, tr')
    end.

Definition raise {A : Type} (e : exn) : M A := fun tr => (Raise e, tr).

(** [try: body / except ... as e: handler e]; a handler re-raises what its
    [except] clause does not match. *)
Definition try_except {A : Type} (body : M A) (handler : exn -> M A) : M A :=
  fun tr =>
    match body tr with
    | (Ok a, tr') => (Ok a, tr')
    | (Raise e, tr') => handler e tr'
    end.

Definition emit (ev : event) : M unit := fun tr => (Ok tt, (tr ++ [ev])%list).

Notation "x <- m ;; k" := (bind m (fun x => k))
  (at level 61, m at next level, right associativity).
Notation "m ;;; k" := (bind m (fun _ => k))
  (at level 61, right associativity).

Definition logging_info (msg : string) : M unit := emit (LogInfo msg).
Definition logging_error (msg : string) : M unit := emit (LogError msg).
Definition time_sleep (seconds : nat) : M unit := emit (Sleep seconds).

(** [requests.post(url, headers=..., json=...)] *)
Definition requests_post
    (url : string) (hdrs : list (string * string)) (data : message_data_t)
  : M response :=
  fun tr =>
    match transport tr data with
    | Responded r => (Ok r, (tr ++ [Post url hdrs data])%list)
    | ConnectionFailed msg =>
        (Raise (RequestException msg None), (tr ++ [Post url hdrs data])%list)
    end.

(** [response.raise_for_status()] *)
Definition raise_for_status (r : response) : M unit :=
  if (400 <=? status_code r) && (status_code r <? 600)
  then raise (RequestException (http_error_msg r) (Some r))
  else ret tt.

(** [response.json()] *)
Definition response_json (r : response) : M json :=
  match json_body r with
  | Parsed j => ret j
  | Unparseable msg => raise (RequestException msg None)
  end.

(** [WhatsAppSender.__init__], without the logging set-up. *)
Definition init (getenv : string -> option string) : result WhatsAppSender :=
  match getenv "META_ACCESS_TOKEN", getenv "PHONE_NUMBER_ID" with
  | Some (String a t), Some (String b i) =>
      Ok {| access_token := String a t; phone_number_id := String b i |}
  | _, _ =>
      Raise (ValueError
               "Please set META_ACCESS_TOKEN and PHONE_NUMBER_ID in .env file")
  end.

(** [WhatsAppSender.send_template_message] *)
Definition send_template_message
    (self : WhatsAppSender) (to_phone template_name : pyobj)
    (params : option dict)
  : M json :=
  let to_phone := clean_phone_number to_phone in
  let message_data := prepare_message_data to_phone template_name params in
  try_except
    (response <- requests_post (base_url self ++ "/messages") (headers self)
                               message_data ;;
     raise_for_status response ;;;
     result <- response_json response ;;
     logging_info ("Message sent successfully to " ++ to_phone) ;;;
     ret result)
    (fun e =>
       match e with
       | RequestException _ e_response =>
           let error_msg := "Failed to send message to " ++ to_phone in
           error_msg <-
             match e_response with
             | Some r =>              (* [hasattr(e.response, 'json')] *)
                 body <- response_json r ;;
                 ret (error_msg ++ ": " ++ json_str body)
             | None => ret error_msg
             end ;;
           logging_error error_msg ;;;
           raise (Exception error_msg)
       | _ => raise e
       end).

(** One turn of the loop of [process_excel] (lines 134-163).  Neither
    [logging] nor [time.sleep] raises, so the increment of
    [results['successful']] is reached exactly when the send returns. *)
Definition process_row
    (self : WhatsAppSender) (cols : list string) (total_rows index : nat)
    (row : row_t) (results : results_t)
  : M results_t :=
  try_except
    (let params := row_params cols row in
     send_template_message self (row "phone_number") (row "template_name")
                           (Some params) ;;;
     let results :=
       {| successful := successful results + 1;
          failed := failed results;
          failures := failures results |} in
     logging_info ("Progress: " ++ str_of_nat (index + 1) ++ "/"
                   ++ str_of_nat total_rows) ;;;
     (if index <? total_rows - 1 then time_sleep 1 else ret tt) ;;;
     ret results)
    (fun e =>
       let results :=
         {| successful := successful results;
            failed := failed results + 1;
            failures :=
              (failures results
               ++ [{| phone := row "phone_number"; error := exn_str e |}])%list
         |} in
       logging_error ("Failed for " ++ py_str (row "phone_number") ++ ": "
                      ++ exn_str e) ;;;
       ret results).

(** [for index, row in df.iterrows():]; a frame read by [read_excel] has
    the default index, so [index] is the position of the row.  The loop
    body runs only when [total_rows] is at least 1, where the truncated
    subtraction in [process_row] is the subtraction of integers. *)
Fixpoint iterrows
    (self : WhatsAppSender) (cols : list string) (total_rows index : nat)
    (rs : list row_t) (results : results_t)
  : M results_t :=
  match rs with
  | [] => ret results
  | row :: rest =>
      results <- process_row self cols total_rows index row results ;;
      iterrows self cols total_rows (S index) rest results
  end.

Definition has_required_columns (df : DataFrame) : bool :=
  forallb (fun col => mem col (columns df)) required_columns.

(** [WhatsAppSender.process_excel]; [read_excel] is what
    [pd.read_excel(excel_file, sheet_name=sheet_name)] gave. *)
Definition process_excel
    (self : WhatsAppSender) (read_excel : result DataFrame)
  : M results_t :=
  try_except
    (df <- (fun tr => (read_excel, tr)) ;;
     if negb (has_required_columns df)
     then raise (ValueError
                   "Excel must contain columns: ['phone_number', 'template_name']")
     else
       let results := {| successful := 0; failed := 0; failures := [] |} in
       let total_rows := length (rows df) in
       iterrows self (columns df) total_rows 0 (rows df) results)
    (fun e =>
       logging_error ("Excel processing error: " ++ exn_str e) ;;;
       raise e).

End Sender.

Arguments Parsed {json} j.
Arguments Unparseable {json} msg.
Arguments Build_response {json} status_code http_error_msg json_body.
Arguments status_code {json} r.
Arguments http_error_msg {json} r.
Arguments json_body {json} r.
Arguments Responded {json} r.
Arguments ConnectionFailed {json} msg.
Arguments ValueError {json} msg.
Arguments RequestException {json} msg resp.
Arguments Exception {json} msg.
Arguments OtherError {json} msg.
Arguments exn_str {json} e.
Arguments Ok {json A} a.
Arguments Raise {json A} e.
Arguments ret {json A} a tr.
Arguments bind {json A B} m k tr.
Arguments raise {json A} e tr.
Arguments try_except {json A} body handler tr.
Arguments emit {json} ev tr.
Arguments logging_info {json} msg tr.
Arguments logging_error {json} msg tr.
Arguments time_sleep {json} seconds tr.
Arguments requests_post {json} transport url hdrs data tr.
Arguments raise_for_status {json} r tr.
Arguments response_json {json} r tr.
Arguments init {json} getenv.
Arguments send_template_message {json} json_str transport self to_phone
  template_name params tr.
Arguments process_row {json} json_str transport self cols total_rows index row
  results tr.
Arguments iterrows {json} json_str transport self cols total_rows index rs
  results tr.
Arguments process_excel {json} json_str transport self read_excel tr.

(** ** [main] (lines 172-191)

    What [main] prints is kept apart from the trace: one string per call of
    [print], without the line end that [print] adds. *)

(** The line feed of a literal such as ["\nError: ..."]. *)
Definition nl : string := String (ascii_of_nat 10) "".

(** The calls of [print] after a run that returned [results]. *)
Definition summary_lines (results : results_t) : list string :=
  List.app
    [nl ++ "Processing Summary:";
     "Successfully sent: " ++ str_of_nat (successful results);
     "Failed: " ++ str_of_nat (failed results)]
    match failures results with
    | [] => []
    | _ :: _ =>
        (nl ++ "Failed numbers:")
        :: map (fun failure =>
                  "- " ++ py_str (phone failure) ++ ": " ++ error failure)
               (failures results)
    end.

Section Main.

Variable json : Type.
Variable json_str : json -> string.
Variable transport : list event -> message_data_t -> post_result json.

(** [main()]: [getenv] is the environment after [load_dotenv()], and
    [read_excel] what reading 'contacts.xlsx' gives. *)
Definition main
    (getenv : string -> option string) (read_excel : result json DataFrame)
    (tr : list event)
  : list string * list event :=
  match @init json getenv with
  | Ok sender =>
      match process_excel json_str transport sender read_excel tr with
      | (Ok results, tr') => (summary_lines results, tr')
      | (Raise e, tr') => ([nl ++ "Error: " ++ exn_str e], tr')
      end
  | Raise e => ([nl ++ "Error: " ++ exn_str e], tr)
  end.

End Main.

Arguments main {json} json_str transport getenv read_excel tr.

(** ** Vocabulary of the statements *)

(** [l1] is [l2] with some elements left out, the order kept. *)
Inductive subseq {A : Type} : list A -> list A -> Prop :=
| subseq_nil : subseq [] []
| subseq_skip (x : A) (l1 l2 : list A) : subseq l1 l2 -> subseq l1 (x :: l2)
| subseq_keep (x : A) (l1 l2 : list A) : subseq l1 l2 -> subseq (x :: l1) (x :: l2).

(** The request [process_excel] makes for a row. *)
Definition row_post (self : WhatsAppSender) (cols : list string) (row : row_t)
  : event :=
  Post (base_url self ++ "/messages") (headers self)
       (prepare_message_data (clean_phone_number (row "phone_number"))
                             (row "template_name")
                             (Some (row_params cols row))).

(** The progress lines of a trace. *)
Definition is_progress (ev : event) : bool :=
  match ev with
  | LogInfo msg => prefix "Progress: " msg
  | _ => false
  end.

Definition progress_line (total_rows n : nat) : event :=
  LogInfo ("Progress: " ++ str_of_nat n ++ "/" ++ str_of_nat total_rows).

(** ** Sample data

    Parsed JSON is represented by its rendering, a [string]. *)

Module Sample.

Definition json : Type := string.
Definition json_str (j : json) : string := j.

Definition sender : WhatsAppSender :=
  {| access_token := "EAAG-token"; phone_number_id := "100200300" |}.

(** A row given by its cells; a label without a cell reads as empty. *)
Definition mk_row (cells : list (string * pyobj)) : row_t :=
  fun col =>
    match find (fun kv => String.eqb (fst kv) col) cells with
    | Some kv => snd kv
    | None => PyNaN
    end.

Definition ann : row_t :=
  mk_row [("phone_number", PyStr "+1 (555) 123-4567");
          ("template_name", PyStr "welcome");
          ("name", PyStr "Ann");
          ("code", PyInt 42)].

Definition bob : row_t :=
  mk_row [("phone_number", PyStr "not-a-number");
          ("template_name", PyStr "welcome");
          ("name", PyNaN);
          ("code", PyNaN)].

Definition cleo : row_t :=
  mk_row [("phone_number", PyInt 919042014905);
          ("template_name", PyStr "welcome");
          ("name", PyStr "Cleo");
          ("code", PyNaN)].

Definition contacts : DataFrame :=
  {| columns := ["phone_number"; "name"; "template_name"; "code"];
     rows := [ann; bob; cleo] |}.

Definition no_template_column : DataFrame :=
  {| columns := ["phone_number"; "name"]; rows := [ann; bob] |}.

Definition empty_table : DataFrame :=
  {| columns := ["phone_number"; "template_name"]; rows := [] |}.

Definition only_ann : DataFrame :=
  {| columns := ["phone_number"; "name"; "template_name"; "code"];
     rows := [ann] |}.

(** The provider accepts every message. *)
Definition accept_all (tr : list event) (data : message_data_t)
  : post_result json :=
  Responded {| status_code := 200;
               http_error_msg := "";
               json_body := Parsed "{'messages': [{'id': 'wamid.1'}]}" |}.

(** The provider rejects a message without recipient with HTTP 400 and a
    JSON error body, and accepts the others. *)
Definition reject_empty_recipient (tr : list event) (data : message_data_t)
  : post_result json :=
  match to data with
  | EmptyString =>
      Responded {| status_code := 400;
                   http_error_msg :=
                     "400 Client Error: Bad Request for url: https://graph.facebook.com/v17.0/100200300/messages";
                   json_body :=
                     Parsed "{'error': {'message': 'Invalid parameter'}}" |}
  | _ => accept_all tr data
  end.

(** No connection: [requests.post] raises a [ConnectionError]. *)
Definition unreachable (tr : list event) (data : message_data_t)
  : post_result json :=
  ConnectionFailed "Max retries exceeded".

(** A gateway in front of the provider answers HTTP 502 with an HTML page,
    which [Response.json()] cannot decode. *)
Definition bad_gateway (tr : list event) (data : message_data_t)
  : post_result json :=
  Responded {| status_code := 502;
               http_error_msg :=
                 "502 Server Error: Bad Gateway for url: https://graph.facebook.com/v17.0/100200300/messages";
               json_body :=
                 Unparseable "Expecting value: line 1 column 1 (char 0)" |}.

(** Environments for [main]. *)
Definition getenv_complete (var : string) : option string :=
  if String.eqb var "META_ACCESS_TOKEN" then Some "EAAG-token"
  else if String.eqb var "PHONE_NUMBER_ID" then Some "100200300"
  else None.

Definition getenv_empty_token (var : string) : option string :=
  if String.eqb var "META_ACCESS_TOKEN" then Some ""
  else if String.eqb var "PHONE_NUMBER_ID" then Some "100200300"
  else None.

End Sample.

(** * Properties *)

(** ** The phone number normalizer *)

Example clean_phone_number_formatted :
  clean_phone_number (PyStr "+1 (555) 123-4567") = "15551234567".
Proof. reflexivity. Qed.

Example clean_phone_number_not_a_number :
  clean_phone_number (PyStr "not-a-number") = "".
Proof. reflexivity. Qed.

Example clean_phone_number_int_cell :
  clean_phone_number (PyInt 919042014905) = "919042014905".
Proof. reflexivity. Qed.

Example clean_phone_number_empty_cell :
  clean_phone_number PyNaN = "".
Proof. reflexivity. Qed.

Lemma join_filter_chars (p : ascii -> bool) (s : string) :
  list_ascii_of_string (join_filter p s) = filter p (list_ascii_of_string s).
Proof.
  induction s as [|c rest IH]; simpl.
  - reflexivity.
  - destruct (p c); simpl; now rewrite IH.
Qed.

Lemma join_filter_idempotent (p : ascii -> bool) (s : string) :
  join_filter p (join_filter p s) = join_filter p s.
Proof.
  induction s as [|c rest IH]; simpl.
  - reflexivity.
  - destruct (p c) eqn:Hc; simpl.
    + now rewrite Hc, IH.
    + exact IH.
Qed.

Lemma forallb_filter_same {A : Type} (p : A -> bool) (l : list A) :
  forallb p (filter p l) = true.
Proof.
  induction l as [|a l IH]; simpl.
  - reflexivity.
  - destruct (p a) eqn:Ha; simpl.
    + now rewrite Ha.
    + exact IH.
Qed.

Lemma ascii_isdigit_is_decimal (c : ascii) :
  is_ascii c = true -> str_isdigit c = true -> is_decimal_digit c = true.
Proof.
  unfold is_ascii, str_isdigit, is_decimal_digit.
  set (n := nat_of_ascii c).
  intros Hlt Hd.
  apply Nat.ltb_lt in Hlt.
  destruct (n =? 178) eqn:E1; [apply Nat.eqb_eq in E1; lia|].
  destruct (n =? 179) eqn:E2; [apply Nat.eqb_eq in E2; lia|].
  destruct (n =? 185) eqn:E3; [apply Nat.eqb_eq in E3; lia|].
  now rewrite !orb_false_r in Hd.
Qed.

Lemma filter_isdigit_ascii_decimal (l : list ascii) :
  forallb is_ascii l = true ->
  forallb is_decimal_digit (filter str_isdigit l) = true.
Proof.
  induction l as [|c l IH]; simpl; intros H.
  - reflexivity.
  - apply andb_true_iff in H as [Hc Hl].
    destruct (str_isdigit c) eqn:Hd; simpl.
    + rewrite (ascii_isdigit_is_decimal c Hc Hd). now apply IH.
    + now apply IH.
Qed.

(** For every raw input string, [clean_phone_number] returns the characters
    of the input that [str.isdigit] accepts, in their original order and
    with every other character dropped (space, dash, plus sign and
    parentheses among them).  The characters kept are '0'..'9' and, outside
    ASCII, further digits such as the superscript two; on an input made of
    ASCII characters the output holds decimal digits only.  The function is
    total and maps the empty string to the empty string. *)
Theorem clean_phone_number_keeps_isdigit_characters (raw : string) :
  list_ascii_of_string (clean_phone_number (PyStr raw))
  = filter str_isdigit (list_ascii_of_string raw)
  /\ forallb str_isdigit
       (list_ascii_of_string (clean_phone_number (PyStr raw))) = true
  /\ (forallb is_ascii (list_ascii_of_string raw) = true ->
      forallb is_decimal_digit
        (list_ascii_of_string (clean_phone_number (PyStr raw))) = true)
  /\ forallb (fun c => negb (str_isdigit c))
       (list_ascii_of_string " -+()") = true
  /\ forallb str_isdigit (list_ascii_of_string "0123456789") = true
  /\ clean_phone_number (PyStr "") = "".
Proof.
  unfold clean_phone_number; simpl py_str.
  rewrite join_filter_chars.
  repeat split.
  - apply forallb_filter_same.
  - apply filter_isdigit_ascii_decimal.
Qed.

(** C5 says that the result holds decimal digits only.  On the input
    "555" followed by U+00B2 (superscript two), a character [str.isdigit]
    accepts, the code returns the input unchanged, so the result ends with a
    character that is no decimal digit. *)
Theorem C5_superscript_two_is_kept :
  clean_phone_number (PyStr ("555" ++ String (ascii_of_nat 178) ""))
  = "555" ++ String (ascii_of_nat 178) ""
  /\ map is_decimal_digit
       (list_ascii_of_string
          (clean_phone_number (PyStr ("555" ++ String (ascii_of_nat 178) ""))))
     = [true; true; true; false].
Proof. split; reflexivity. Qed.

(** C6: [clean_phone_number] is idempotent: cleaning its own output, a
    string, gives that output back. *)
Theorem C6_clean_phone_number_idempotent (x : pyobj) :
  clean_phone_number (PyStr (clean_phone_number x)) = clean_phone_number x.
Proof.
  unfold clean_phone_number; simpl py_str.
  apply join_filter_idempotent.
Qed.

(** ** The parameters of a row *)

Lemma dict_set_fresh (d : dict) (k : string) (v : pyobj) :
  ~ In k (map fst d) -> dict_set d k v = (d ++ [(k, v)])%list.
Proof.
  induction d as [|[k' v'] d IH]; simpl; intros Hk.
  - reflexivity.
  - destruct (String.eqb_spec k' k) as [->|Hne].
    + exfalso. apply Hk. now left.
    + rewrite IH; [reflexivity|]. intros Hin. apply Hk. now right.
Qed.

Lemma is_parameter_test (row : row_t) (col : string) :
  negb (mem col required_columns) && notna (row col) = is_parameter row col.
Proof.
  unfold is_parameter, mem, required_columns; simpl.
  now rewrite orb_false_r, negb_orb.
Qed.

Lemma row_params_from (row : row_t) (cols : list string) (d : dict) :
  NoDup cols ->
  (forall col, In col cols -> ~ In col (map fst d)) ->
  fold_left
    (fun d col =>
       if negb (mem col required_columns) && notna (row col)
       then dict_set d col (row col)
       else d)
    cols d
  = (d ++ map (fun col => (col, row col)) (filter (is_parameter row) cols))%list.
Proof.
  intros Hnd. revert d.
  induction Hnd as [|col cols Hnotin Hnd IH]; intros d Hfresh.
  - simpl. now rewrite app_nil_r.
  - cbn [fold_left filter]. rewrite is_parameter_test.
    destruct (is_parameter row col) eqn:Hp; cbn [map].
    + rewrite dict_set_fresh by (apply Hfresh; now left).
      rewrite IH.
      * now rewrite <- app_assoc.
      * intros c Hc. rewrite map_app, in_app_iff. simpl.
        intros [Hin|[->|[]]].
        -- revert Hin. apply Hfresh. now right.
        -- now apply Hnotin.
    + apply IH. intros c Hc. apply Hfresh. now right.
Qed.

(** C7: for every row of a table (whose column labels are distinct, as
    pandas makes them), the parameters mapping built for the send holds
    exactly the columns other than [phone_number] and [template_name] whose
    cell is present, each with the value of its cell, in the order of the
    table's columns. *)
Theorem C7_row_params_are_present_extra_columns
    (cols : list string) (row : row_t) :
  NoDup cols ->
  row_params cols row
  = map (fun col => (col, row col)) (filter (is_parameter row) cols).
Proof.
  intros Hnd. unfold row_params.
  rewrite row_params_from; [reflexivity|exact Hnd|].
  intros col _ [].
Qed.

Lemma C7_witness_contacts_ann :
  NoDup (columns Sample.contacts)
  /\ row_params (columns Sample.contacts) Sample.ann
     = [("name", PyStr "Ann"); ("code", PyInt 42)].
Proof.
  assert (Hnd : NoDup (columns Sample.contacts)).
  { repeat constructor; simpl; intuition discriminate. }
  split; [exact Hnd|].
  rewrite (C7_row_params_are_present_extra_columns _ Sample.ann Hnd).
  reflexivity.
Defined.

(** ** Substrings *)

Lemma append_empty_r (s : string) : s ++ "" = s.
Proof. induction s as [|c s IH]; simpl; [reflexivity|now rewrite IH]. Qed.

Lemma prefix_append (s1 s2 : string) : prefix s1 (s1 ++ s2) = true.
Proof.
  induction s1 as [|c s1 IH]; simpl.
  - now destruct s2.
  - destruct (ascii_dec c c) as [_|Hne]; [exact IH|now elim Hne].
Qed.

Lemma contains_after_prefix (before needle rest : string) :
  contains needle (before ++ needle ++ rest) = true.
Proof.
  induction before as [|c before IH].
  - cbn [append]. destruct (needle ++ rest) eqn:E; cbn [contains];
      rewrite <- E, prefix_append; reflexivity.
  - cbn [append contains]. rewrite IH. apply orb_true_r.
Qed.

(** ** The dispatcher and the batch loop *)

Lemma has_required_columns_In (df : DataFrame) :
  has_required_columns df = true
  <-> In "phone_number" (columns df) /\ In "template_name" (columns df).
Proof.
  unfold has_required_columns, required_columns, mem. cbn [forallb].
  rewrite andb_true_r, andb_true_iff, !existsb_exists.
  split.
  - intros [[x [Hx Ex]] [y [Hy Ey]]].
    apply String.eqb_eq in Ex, Ey. subst. now split.
  - intros [Hp Ht]. split.
    + exists "phone_number". split; [exact Hp|apply String.eqb_refl].
    + exists "template_name". split; [exact Ht|apply String.eqb_refl].
Qed.

Lemma posts_app (tr1 tr2 : list event) :
  posts (tr1 ++ tr2) = (posts tr1 ++ posts tr2)%list.
Proof. apply filter_app. Qed.

Lemma sleeps_app (tr1 tr2 : list event) :
  sleeps (tr1 ++ tr2) = (sleeps tr1 ++ sleeps tr2)%list.
Proof. apply filter_app. Qed.

Section Effects.

Variable json : Type.
Variable json_str : json -> string.
Variable transport : list event -> message_data_t -> post_result json.
Variable self : WhatsAppSender.

Local Abbreviation send := (send_template_message json_str transport self).
Local Abbreviation endpoint := (base_url self ++ "/messages").

(** What one call of [send_template_message] does, by the answer of the
    network. *)
Lemma send_template_message_cases
    (to_phone template_name : pyobj) (params : option dict)
    (tr : list event) :
  let phone := clean_phone_number to_phone in
  let data := prepare_message_data phone template_name params in
  let posted := (tr ++ [Post endpoint (headers self) data])%list in
  let msg := "Failed to send message to " ++ phone in
  send to_phone template_name params tr
  = match transport tr data with
    | Responded r =>
        if (400 <=? status_code r) && (status_code r <? 600)
        then match json_body r with
             | Parsed body =>
                 (Raise (Exception (msg ++ ": " ++ json_str body)),
                  (posted ++ [LogError (msg ++ ": " ++ json_str body)])%list)
             | Unparseable m => (Raise (RequestException m None), posted)
             end
        else match json_body r with
             | Parsed j =>
                 (Ok j,
                  (posted
                   ++ [LogInfo ("Message sent successfully to " ++ phone)])%list)
             | Unparseable _ =>
                 (Raise (Exception msg), (posted ++ [LogError msg])%list)
             end
    | ConnectionFailed _ =>
        (Raise (Exception msg), (posted ++ [LogError msg])%list)
    end.
Proof.
  intros phone data posted msg.
  unfold send_template_message, try_except, bind, requests_post.
  fold phone. fold data. fold msg.
  destruct (transport tr data) as [r|m]; [|reflexivity].
  unfold raise_for_status.
  destruct ((400 <=? status_code r) && (status_code r <? 600)).
  - unfold raise, bind, response_json.
    destruct (json_body r); reflexivity.
  - unfold ret, response_json.
    destruct (json_body r); reflexivity.
Qed.

(** A call posts exactly once, whatever the outcome. *)
Lemma send_template_message_posts_once
    (to_phone template_name : pyobj) (params : option dict)
    (tr : list event) :
  exists rest,
    snd (send to_phone template_name params tr)
    = (tr
       ++ Post endpoint (headers self)
            (prepare_message_data (clean_phone_number to_phone)
                                  template_name params)
          :: rest)%list
    /\ posts rest = [].
Proof.
  rewrite send_template_message_cases.
  destruct (transport tr _) as [r|m].
  - destruct ((400 <=? status_code r) && (status_code r <? 600));
      destruct (json_body r); cbn [snd]; rewrite <- ?app_assoc;
      eexists; (split; [reflexivity|reflexivity]).
  - cbn [snd]. rewrite <- app_assoc. eexists. split; reflexivity.
Qed.

(** One turn of the loop, by the outcome of its send. *)
Lemma process_row_cases
    (cols : list string) (total_rows index : nat) (row : row_t)
    (results : results_t) (tr : list event) :
  process_row json_str transport self cols total_rows index row results tr
  = match send (row "phone_number") (row "template_name")
               (Some (row_params cols row)) tr with
    | (Ok _, tr1) =>
        (Ok {| successful := successful results + 1;
               failed := failed results;
               failures := failures results |},
         (tr1
          ++ LogInfo ("Progress: " ++ str_of_nat (index + 1) ++ "/"
                      ++ str_of_nat total_rows)
             :: (if index <? total_rows - 1 then [Sleep 1] else []))%list)
    | (Raise e, tr1) =>
        (Ok {| successful := successful results;
               failed := failed results + 1;
               failures :=
                 (failures results
                  ++ [{| phone := row "phone_number";
                         error := exn_str e |}])%list |},
         (tr1
          ++ [LogError ("Failed for " ++ py_str (row "phone_number") ++ ": "
                        ++ exn_str e)])%list)
    end.
Proof.
  unfold process_row, try_except, bind.
  destruct (send _ _ _ tr) as [[j|e] tr1].
  - unfold logging_info, emit, time_sleep, ret.
    destruct (index <? total_rows - 1); cbn -[str_of_nat append Nat.add].
    + now rewrite <- app_assoc.
    + reflexivity.
  - reflexivity.
Qed.

Lemma process_row_posts_once
    (cols : list string) (total_rows index : nat) (row : row_t)
    (results : results_t) (tr : list event) :
  length (posts (snd (process_row json_str transport self cols total_rows
                                  index row results tr)))
  = length (posts tr) + 1.
Proof.
  rewrite process_row_cases.
  destruct (send_template_message_posts_once
              (row "phone_number") (row "template_name")
              (Some (row_params cols row)) tr) as [rest [Htr Hrest]].
  destruct (send _ _ _ tr) as [[j|e] tr1]; cbn [snd] in *; subst tr1.
  - unfold posts in *.
    destruct (index <? total_rows - 1);
      rewrite !filter_app; cbn [filter is_post];
      rewrite Hrest, !length_app; simpl; lia.
  - unfold posts in *.
    rewrite !filter_app; cbn [filter is_post];
      rewrite Hrest, !length_app; simpl; lia.
Qed.

Lemma process_row_one_counter
    (cols : list string) (total_rows index : nat) (row : row_t)
    (results : results_t) (tr : list event) :
  exists results' tr',
    process_row json_str transport self cols total_rows index row results tr
    = (Ok results', tr')
    /\ one_counter_moved results results'.
Proof.
  rewrite process_row_cases.
  destruct (send _ _ _ tr) as [[j|e] tr1]; do 2 eexists;
    (split; [reflexivity|]).
  - left. simpl. auto.
  - right. simpl. eauto.
Qed.

(** The loop over a concatenation. *)
Lemma iterrows_app
    (cols : list string) (total_rows : nat) (pre post : list row_t)
    (index : nat) (results : results_t) (tr : list event) :
  iterrows json_str transport self cols total_rows index (pre ++ post)
           results tr
  = match iterrows json_str transport self cols total_rows index pre
                   results tr with
    | (Ok results1, tr1) =>
        iterrows json_str transport self cols total_rows
                 (index + length pre) post results1 tr1
    | (Raise e, tr1) => (Raise e, tr1)
    end.
Proof.
  revert index results tr.
  induction pre as [|row pre IH]; intros index results tr.
  - simpl. now rewrite Nat.add_0_r.
  - cbn [app iterrows length]. unfold bind.
    destruct (process_row _ _ _ _ _ _ _ _ _) as [[results1|e] tr1].
    + rewrite IH. now replace (S index + length pre) with (index + S (length pre)) by lia.
    + reflexivity.
Qed.

(** The loop never raises; it counts every row once and posts once per
    row. *)
Lemma iterrows_summary
    (cols : list string) (total_rows : nat) (rs : list row_t)
    (index : nat) (results : results_t) (tr : list event) :
  exists results' tr',
    iterrows json_str transport self cols total_rows index rs results tr
    = (Ok results', tr')
    /\ successful results' + failed results'
       = successful results + failed results + length rs
    /\ length (failures results') + failed results
       = length (failures results) + failed results'
    /\ length (posts tr') = length (posts tr) + length rs.
Proof.
  revert index results tr.
  induction rs as [|row rs IH]; intros index results tr.
  - exists results, tr. simpl. repeat split; lia.
  - cbn [iterrows]. unfold bind.
    pose proof (process_row_posts_once cols total_rows index row results tr)
      as Hposts.
    destruct (process_row_one_counter cols total_rows index row results tr)
      as [r1 [tr1 [Hrow Hone]]].
    rewrite Hrow in *. cbn [snd] in Hposts.
    destruct (IH (S index) r1 tr1) as [r2 [tr2 [Hrest [Hsum [Hlen Hp]]]]].
    exists r2, tr2. split; [exact Hrest|].
    cbn [length].
    destruct Hone as [[Hs [Hf Hfl]]|[Hs [Hf [entry Hfl]]]].
    + rewrite Hfl in Hlen. repeat split; lia.
    + rewrite Hfl, length_app in Hlen. simpl in Hlen. repeat split; lia.
Qed.

Lemma process_excel_with_columns (df : DataFrame) (tr0 : list event) :
  has_required_columns df = true ->
  process_excel json_str transport self (Ok df) tr0
  = match iterrows json_str transport self (columns df) (length (rows df)) 0
                   (rows df)
                   {| successful := 0; failed := 0; failures := [] |} tr0 with
    | (Ok results, tr) => (Ok results, tr)
    | (Raise e, tr) =>
        (Raise e, (tr ++ [LogError ("Excel processing error: " ++ exn_str e)])%list)
    end.
Proof.
  intros Hcols.
  unfold process_excel, try_except, bind. rewrite Hcols. cbn [negb].
  destruct (iterrows _ _ _ _ _ _ _ _ _) as [[results|e] tr]; reflexivity.
Qed.

(** C1: in a run over a table that has the required columns, every row
    moves exactly one of the two counters; the run returns a summary in
    which [successful + failed] is the number of rows and [failures] has
    [failed] entries; an empty table gives 0, 0 and no failures. *)
Theorem C1_every_row_counted_once (df : DataFrame) (tr0 : list event) :
  In "phone_number" (columns df) ->
  In "template_name" (columns df) ->
  (forall index row results tr,
      exists results' tr',
        process_row json_str transport self (columns df) (length (rows df))
                    index row results tr
        = (Ok results', tr')
        /\ one_counter_moved results results')
  /\ exists results tr,
      process_excel json_str transport self (Ok df) tr0 = (Ok results, tr)
      /\ successful results + failed results = length (rows df)
      /\ length (failures results) = failed results
      /\ (rows df = [] ->
          results = {| successful := 0; failed := 0; failures := [] |}).
Proof.
  intros Hp Ht. split.
  - intros. apply process_row_one_counter.
  - rewrite process_excel_with_columns
      by (apply has_required_columns_In; now split).
    destruct (iterrows_summary (columns df) (length (rows df)) (rows df) 0
                {| successful := 0; failed := 0; failures := [] |} tr0)
      as [results [tr [Hrun [Hsum [Hlen _]]]]].
    rewrite Hrun. exists results, tr. cbn in Hsum, Hlen.
    repeat split; try lia.
    intros Hempty. rewrite Hempty in Hrun. cbn in Hrun.
    unfold ret in Hrun. now inversion Hrun.
Qed.

(** C2: when the send of a row raises, the loop catches it at that row: the
    failure counter goes up by one, the entry [{phone, error}] is appended,
    and the loop goes on with the rows after it, each of which is sent;
    the run returns its summary and no exception leaves [process_excel]. *)
Theorem C2_row_failure_does_not_stop_the_batch
    (df : DataFrame) (pre post : list row_t) (row : row_t)
    (tr0 tr1 tr2 : list event) (results1 : results_t) (e : exn json) :
  In "phone_number" (columns df) ->
  In "template_name" (columns df) ->
  rows df = (pre ++ row :: post)%list ->
  iterrows json_str transport self (columns df) (length (rows df)) 0 pre
           {| successful := 0; failed := 0; failures := [] |} tr0
  = (Ok results1, tr1) ->
  send (row "phone_number") (row "template_name")
       (Some (row_params (columns df) row)) tr1
  = (Raise e, tr2) ->
  exists results tr,
    process_excel json_str transport self (Ok df) tr0 = (Ok results, tr)
    /\ iterrows json_str transport self (columns df) (length (rows df))
                (length pre + 1) post
                {| successful := successful results1;
                   failed := failed results1 + 1;
                   failures :=
                     (failures results1
                      ++ [{| phone := row "phone_number";
                             error := exn_str e |}])%list |}
                (tr2
                 ++ [LogError ("Failed for " ++ py_str (row "phone_number")
                               ++ ": " ++ exn_str e)])%list
       = (Ok results, tr)
    /\ length (posts tr) = length (posts tr2) + length post.
Proof.
  intros Hp Ht Hrows Hpre Hsend.
  rewrite process_excel_with_columns
    by (apply has_required_columns_In; now split).
  remember (length (rows df)) as total_rows eqn:Htotal.
  rewrite Hrows. rewrite iterrows_app, Hpre.
  cbn [iterrows]. unfold bind at 1.
  rewrite process_row_cases, Hsend.
  replace (S (0 + length pre)) with (length pre + 1) by lia.
  match goal with
  | |- context [iterrows _ _ _ ?c ?t ?i post ?r ?tr] =>
      destruct (iterrows_summary c t post i r tr)
        as [results [tr' [Hrun [_ [_ Hposts]]]]]
  end.
  rewrite Hrun. exists results, tr'.
  repeat split.
  rewrite Hposts, posts_app, length_app. simpl. lia.
Qed.

(** C3: on a table that lacks [phone_number] or [template_name],
    [process_excel] raises the [ValueError] about the columns; the only
    effect is the log line of the error, so no request is posted, and no
    summary is returned. *)
Theorem C3_missing_column_aborts_before_any_send
    (df : DataFrame) (tr0 : list event) :
  ~ In "phone_number" (columns df) \/ ~ In "template_name" (columns df) ->
  exists tr,
    process_excel json_str transport self (Ok df) tr0
    = (Raise (ValueError
                "Excel must contain columns: ['phone_number', 'template_name']"),
       tr)
    /\ tr = (tr0
             ++ [LogError
                   "Excel processing error: Excel must contain columns: ['phone_number', 'template_name']"])%list
    /\ posts tr = posts tr0.
Proof.
  intros Hmissing.
  assert (Hcols : has_required_columns df = false).
  { destruct (has_required_columns df) eqn:H; [|reflexivity].
    apply has_required_columns_In in H. tauto. }
  eexists. split; [|split; [reflexivity|]].
  - unfold process_excel, try_except, bind. rewrite Hcols. reflexivity.
  - rewrite posts_app. cbn. now rewrite app_nil_r.
Qed.

(** C4: every call of [send_template_message] posts one payload, a template
    message to the cleaned number with language code "en" and the given
    template name.  With a non-empty parameter mapping the template has
    exactly one component, of type "body", whose parameters are the
    mapping's values in insertion order, each as its [str] and tagged
    "text"; with an empty or absent mapping it has no components field. *)
Theorem C4_payload_of_a_send
    (to_phone template_name : pyobj) (params : option dict)
    (tr : list event) :
  exists data rest,
    snd (send to_phone template_name params tr)
    = (tr ++ Post endpoint (headers self) data :: rest)%list
    /\ posts rest = []
    /\ messaging_product data = "whatsapp"
    /\ to data = clean_phone_number to_phone
    /\ type_ data = "template"
    /\ name (template data) = template_name
    /\ language (template data) = {| code := "en" |}
    /\ components (template data)
       = match params with
         | Some (item :: items) =>
             Some [{| component_type := "body";
                      parameters :=
                        map (fun kv =>
                               {| parameter_type := "text";
                                  text := py_str (snd kv) |})
                            (item :: items) |}]
         | Some [] => None
         | None => None
         end.
Proof.
  destruct (send_template_message_posts_once to_phone template_name params tr)
    as [rest [Htr Hrest]].
  eexists. exists rest. split; [exact Htr|]. split; [exact Hrest|].
  repeat split.
  destruct params as [[|item items]|]; try reflexivity.
  cbn -[map]. unfold body_component, values. now rewrite map_map.
Qed.

(** A call of [send_template_message] takes no pause. *)
Lemma send_template_message_never_sleeps
    (to_phone template_name : pyobj) (params : option dict)
    (tr : list event) :
  sleeps (snd (send to_phone template_name params tr)) = sleeps tr.
Proof.
  destruct (send_template_message_posts_once to_phone template_name params tr)
    as [rest [Htr _]].
  revert Htr. rewrite send_template_message_cases.
  destruct (transport tr _) as [r|m];
    [destruct ((400 <=? status_code r) && (status_code r <? 600));
     destruct (json_body r)|];
    intros _; cbn [snd]; rewrite ?sleeps_app; cbn; now rewrite ?app_nil_r.
Qed.

(** The text of the [Exception] a call raises starts with the fixed
    words and the cleaned recipient. *)
Lemma send_exception_text
    (to_phone template_name : pyobj) (params : option dict)
    (tr tr1 : list event) (msg : string) :
  send to_phone template_name params tr = (Raise (Exception msg), tr1) ->
  exists suffix,
    msg = "Failed to send message to " ++ clean_phone_number to_phone ++ suffix.
Proof.
  rewrite send_template_message_cases.
  destruct (transport tr _) as [r|m];
    [destruct ((400 <=? status_code r) && (status_code r <? 600));
     destruct (json_body r) as [body|m]|];
    intros H; apply (f_equal fst) in H; cbn [fst] in H;
    try discriminate H; injection H as <-.
  - exists (": " ++ json_str body). reflexivity.
  - exists "". rewrite append_empty_r. reflexivity.
  - exists "". rewrite append_empty_r. reflexivity.
Qed.

(** When the network gives no response, or an error status whose body
    decodes as JSON, the call raises an [Exception] whose text names the
    cleaned recipient and, for a response, renders its body; in every case
    the request is posted once and not again. *)
Theorem send_failure_names_recipient_and_body
    (to_phone template_name : pyobj) (params : option dict)
    (tr : list event) :
  let data :=
    prepare_message_data (clean_phone_number to_phone) template_name params in
  let msg := "Failed to send message to " ++ clean_phone_number to_phone in
  (forall reason,
      transport tr data = ConnectionFailed reason ->
      fst (send to_phone template_name params tr) = Raise (Exception msg))
  /\ (forall r body,
        transport tr data = Responded r ->
        400 <= status_code r < 600 ->
        json_body r = Parsed body ->
        fst (send to_phone template_name params tr)
        = Raise (Exception (msg ++ ": " ++ json_str body)))
  /\ length (posts (snd (send to_phone template_name params tr)))
     = length (posts tr) + 1.
Proof.
  intros data msg. repeat split.
  - intros reason Hnet. rewrite send_template_message_cases.
    fold data. now rewrite Hnet.
  - intros r body Hnet [Hlo Hhi] Hbody. rewrite send_template_message_cases.
    fold data. rewrite Hnet, Hbody.
    apply Nat.leb_le in Hlo. apply Nat.ltb_lt in Hhi. now rewrite Hlo, Hhi.
  - destruct (send_template_message_posts_once to_phone template_name params
                tr) as [rest [Htr Hrest]].
    rewrite Htr. unfold posts in *. rewrite filter_app. cbn [filter is_post].
    rewrite Hrest, length_app. simpl. lia.
Qed.

(** A turn of the loop pauses, for one second, exactly when its send
    returned and the row is not the last one. *)
Theorem pause_only_after_successful_send
    (cols : list string) (total_rows index : nat) (row : row_t)
    (results : results_t) (tr : list event) :
  sleeps (snd (process_row json_str transport self cols total_rows index row
                           results tr))
  = (sleeps tr
     ++ match fst (send (row "phone_number") (row "template_name")
                        (Some (row_params cols row)) tr) with
        | Ok _ => if index <? total_rows - 1 then [Sleep 1] else []
        | Raise _ => []
        end)%list.
Proof.
  rewrite process_row_cases.
  pose proof (send_template_message_never_sleeps
                (row "phone_number") (row "template_name")
                (Some (row_params cols row)) tr) as Hs.
  destruct (send _ _ _ tr) as [[j|e] tr1]; cbn [fst snd] in *.
  - rewrite sleeps_app, Hs. f_equal.
    destruct (index <? total_rows - 1); reflexivity.
  - rewrite sleeps_app, Hs. reflexivity.
Qed.

(** The entry recorded for a failed row holds the cell [phone_number] as
    it is; when the exception is the one the dispatcher builds, its text
    contains the cleaned number. *)
Theorem failed_row_entry_phone_and_error
    (cols : list string) (total_rows index : nat) (row : row_t)
    (results : results_t) (tr tr1 : list event) (e : exn json) :
  send (row "phone_number") (row "template_name")
       (Some (row_params cols row)) tr
  = (Raise e, tr1) ->
  failures (match fst (process_row json_str transport self cols total_rows
                                   index row results tr) with
            | Ok results' => results'
            | Raise _ => results
            end)
  = (failures results
     ++ [{| phone := row "phone_number"; error := exn_str e |}])%list
  /\ (forall msg,
        e = Exception msg ->
        contains (clean_phone_number (row "phone_number")) (exn_str e) = true).
Proof.
  intros Hsend. split.
  - rewrite process_row_cases, Hsend. reflexivity.
  - intros msg ->. cbn [exn_str].
    destruct (send_exception_text _ _ _ _ _ _ Hsend) as [suffix ->].
    apply contains_after_prefix.
Qed.

End Effects.

(** ** Runs on the sample data *)

Example all_accepted_run :
  fst (process_excel Sample.json_str Sample.accept_all Sample.sender
                     (Ok Sample.contacts) [])
  = Ok {| successful := 3; failed := 0; failures := [] |}
  /\ filter (fun ev => match ev with LogInfo msg => prefix "Progress" msg | _ => false end)
        (snd (process_excel Sample.json_str Sample.accept_all Sample.sender
                            (Ok Sample.contacts) []))
     = [LogInfo "Progress: 1/3"; LogInfo "Progress: 2/3"; LogInfo "Progress: 3/3"]
  /\ sleeps (snd (process_excel Sample.json_str Sample.accept_all Sample.sender
                                (Ok Sample.contacts) []))
     = [Sleep 1; Sleep 1].
Proof. repeat split; vm_compute; reflexivity. Qed.

Example empty_table_run :
  process_excel Sample.json_str Sample.unreachable Sample.sender
                (Ok Sample.empty_table) []
  = (Ok {| successful := 0; failed := 0; failures := [] |}, []).
Proof. reflexivity. Qed.

Example invalid_parameter_run :
  fst (process_excel Sample.json_str Sample.reject_empty_recipient
                     Sample.sender (Ok Sample.contacts) [])
  = Ok {| successful := 2;
          failed := 1;
          failures :=
            [{| phone := PyStr "not-a-number";
                error :=
                  "Failed to send message to : {'error': {'message': 'Invalid parameter'}}"
             |}] |}
  /\ length (posts (snd (process_excel Sample.json_str
                                       Sample.reject_empty_recipient
                                       Sample.sender (Ok Sample.contacts) [])))
     = 3.
Proof. split; vm_compute; reflexivity. Qed.

(** ** Instances of the theorems above *)

Lemma C1_witness_contacts :
  In "phone_number" (columns Sample.contacts)
  /\ In "template_name" (columns Sample.contacts)
  /\ exists results tr,
      process_excel Sample.json_str Sample.reject_empty_recipient Sample.sender
                    (Ok Sample.contacts) []
      = (Ok results, tr)
      /\ successful results + failed results = 3
      /\ length (failures results) = failed results.
Proof.
  assert (Hp : In "phone_number" (columns Sample.contacts))
    by (left; reflexivity).
  assert (Ht : In "template_name" (columns Sample.contacts))
    by (right; right; left; reflexivity).
  split; [exact Hp|]. split; [exact Ht|].
  destruct (C1_every_row_counted_once
              Sample.json Sample.json_str Sample.reject_empty_recipient
              Sample.sender Sample.contacts [] Hp Ht)
    as [_ [results [tr [Hrun [Hsum [Hlen _]]]]]].
  exists results, tr. repeat split; assumption.
Defined.

Lemma C2_witness_first_row_unreachable :
  exists tr2,
    send_template_message Sample.json_str Sample.unreachable Sample.sender
      (Sample.ann "phone_number") (Sample.ann "template_name")
      (Some (row_params (columns Sample.contacts) Sample.ann)) []
    = (Raise (Exception "Failed to send message to 15551234567"), tr2)
    /\ exists results tr,
        process_excel Sample.json_str Sample.unreachable Sample.sender
                      (Ok Sample.contacts) []
        = (Ok results, tr)
        /\ length (posts tr) = length (posts tr2) + 2.
Proof.
  assert (Hp : In "phone_number" (columns Sample.contacts))
    by (left; reflexivity).
  assert (Ht : In "template_name" (columns Sample.contacts))
    by (right; right; left; reflexivity).
  assert (Hrows : rows Sample.contacts
                  = ([] ++ Sample.ann :: [Sample.bob; Sample.cleo])%list)
    by reflexivity.
  eexists. split; [vm_compute; reflexivity|].
  destruct (C2_row_failure_does_not_stop_the_batch
              Sample.json Sample.json_str Sample.unreachable Sample.sender
              Sample.contacts [] [Sample.bob; Sample.cleo] Sample.ann
              [] [] _ _ _ Hp Ht Hrows eq_refl eq_refl)
    as [results [tr [Hrun [_ Hposts]]]].
  exists results, tr. split; [exact Hrun|exact Hposts].
Defined.

Lemma C3_witness_no_template_column :
  (~ In "phone_number" (columns Sample.no_template_column)
   \/ ~ In "template_name" (columns Sample.no_template_column))
  /\ process_excel Sample.json_str Sample.accept_all Sample.sender
                   (Ok Sample.no_template_column) []
     = (Raise (ValueError
                 "Excel must contain columns: ['phone_number', 'template_name']"),
        [LogError
           "Excel processing error: Excel must contain columns: ['phone_number', 'template_name']"]).
Proof.
  assert (Hmissing :
            ~ In "phone_number" (columns Sample.no_template_column)
            \/ ~ In "template_name" (columns Sample.no_template_column)).
  { right. intros [H|[H|[]]]; discriminate H. }
  split; [exact Hmissing|].
  destruct (C3_missing_column_aborts_before_any_send
              Sample.json Sample.json_str Sample.accept_all Sample.sender
              Sample.no_template_column [] Hmissing)
    as [tr [Hrun [Htr _]]].
  rewrite Hrun, Htr. reflexivity.
Defined.

Lemma failed_row_entry_witness_unreachable :
  failures
    (match fst (process_row Sample.json_str Sample.unreachable Sample.sender
                            (columns Sample.contacts) 3 0 Sample.ann
                            {| successful := 0; failed := 0; failures := [] |}
                            []) with
     | Ok results' => results'
     | Raise _ => {| successful := 0; failed := 0; failures := [] |}
     end)
  = [{| phone := PyStr "+1 (555) 123-4567";
        error := "Failed to send message to 15551234567" |}]
  /\ contains "15551234567" "Failed to send message to 15551234567" = true.
Proof.
  destruct (failed_row_entry_phone_and_error
              Sample.json Sample.json_str Sample.unreachable Sample.sender
              (columns Sample.contacts) 3 0 Sample.ann
              {| successful := 0; failed := 0; failures := [] |}
              [] _ _ eq_refl)
    as [Hentry Htext].
  split; [exact Hentry|].
  exact (Htext _ eq_refl).
Defined.

(** ** Where the code departs from its description *)

(** C8 says that the error of a send that failed at the HTTP level carries
    the recipient.  When the response has an error status and a body that is
    not JSON (here HTTP 502 with an HTML page), the handler itself fails in
    [e.response.json()]: what leaves [send_template_message] is the decoding
    error, whose text does not name the recipient, and no error line is
    logged.  The request was posted once. *)
Theorem C8_undecodable_error_body_loses_the_recipient :
  send_template_message Sample.json_str Sample.bad_gateway Sample.sender
    (PyStr "+1 (555) 123-4567") (PyStr "welcome") None []
  = (Raise (RequestException "Expecting value: line 1 column 1 (char 0)" None),
     [Post "https://graph.facebook.com/v17.0/100200300/messages"
           (headers Sample.sender)
           (prepare_message_data "15551234567" (PyStr "welcome") None)])
  /\ contains "15551234567" "Expecting value: line 1 column 1 (char 0)" = false.
Proof. split; vm_compute; reflexivity. Qed.

(** C9 says that a pause follows every row but the last, failed or not.  In
    the run below the second of three rows fails: the only pause of the run
    is the one after the first row, and the request for the third row comes
    right after the log line of the failure. *)
Theorem C9_no_pause_after_a_failed_row :
  fst (process_excel Sample.json_str Sample.reject_empty_recipient
                     Sample.sender (Ok Sample.contacts) [])
  = Ok {| successful := 2;
          failed := 1;
          failures :=
            [{| phone := PyStr "not-a-number";
                error :=
                  "Failed to send message to : {'error': {'message': 'Invalid parameter'}}"
             |}] |}
  /\ map is_sleep
       (snd (process_excel Sample.json_str Sample.reject_empty_recipient
                           Sample.sender (Ok Sample.contacts) []))
     = [false; false; false; true; false; false; false; false; false; false]
  /\ match skipn 6 (snd (process_excel Sample.json_str
                                       Sample.reject_empty_recipient
                                       Sample.sender (Ok Sample.contacts) [])) with
     | LogError msg :: Post _ _ data :: _ =>
         msg = "Failed for not-a-number: Failed to send message to : {'error': {'message': 'Invalid parameter'}}"
         /\ to data = "919042014905"
     | _ => False
     end.
Proof. repeat split; vm_compute; reflexivity. Qed.

(** C10 says that the error text of a failure entry contains the cleaned
    phone number.  When the response has an error status and a body that is
    not JSON, the entry keeps the raw cell as its phone, but its error is the
    text of the decoding error, which does not contain the cleaned number. *)
Theorem C10_undecodable_error_body_entry_lacks_the_number :
  fst (process_excel Sample.json_str Sample.bad_gateway Sample.sender
                     (Ok Sample.only_ann) [])
  = Ok {| successful := 0;
          failed := 1;
          failures :=
            [{| phone := PyStr "+1 (555) 123-4567";
                error := "Expecting value: line 1 column 1 (char 0)" |}] |}
  /\ clean_phone_number (PyStr "+1 (555) 123-4567") = "15551234567"
  /\ contains "15551234567" "Expecting value: line 1 column 1 (char 0)" = false.
Proof. repeat split; vm_compute; reflexivity. Qed.

(** * Further properties of the code *)

(** ** More on [clean_phone_number] *)

Lemma join_filter_app (p : ascii -> bool) (s1 s2 : string) :
  join_filter p (s1 ++ s2) = join_filter p s1 ++ join_filter p s2.
Proof.
  induction s1 as [|c s1 IH]; simpl.
  - reflexivity.
  - destruct (p c); simpl; now rewrite IH.
Qed.

Lemma join_filter_length (p : ascii -> bool) (s : string) :
  String.length (join_filter p s) <= String.length s.
Proof.
  induction s as [|c s IH]; simpl.
  - lia.
  - destruct (p c); simpl; lia.
Qed.

Lemma join_filter_all (p : ascii -> bool) (s : string) :
  forallb p (list_ascii_of_string s) = true -> join_filter p s = s.
Proof.
  induction s as [|c s IH]; simpl; intros H.
  - reflexivity.
  - apply andb_true_iff in H as [Hc Hs]. now rewrite Hc, IH.
Qed.

Lemma string_of_uint_digits (d : Decimal.uint) :
  forallb str_isdigit (list_ascii_of_string (NilEmpty.string_of_uint d)) = true.
Proof. induction d; simpl; auto. Qed.

Lemma nilzero_string_of_uint_digits (d : Decimal.uint) :
  forallb str_isdigit (list_ascii_of_string (NilZero.string_of_uint d)) = true.
Proof.
  destruct d; try apply (string_of_uint_digits (_ d)); reflexivity.
Qed.

(** A phone number is left as it is exactly when every character of it is
    one that [str.isdigit] accepts. *)
Theorem clean_phone_number_fixes_digit_strings (raw : string) :
  clean_phone_number (PyStr raw) = raw
  <-> forallb str_isdigit (list_ascii_of_string raw) = true.
Proof.
  unfold clean_phone_number; simpl py_str. split.
  - intros H. rewrite <- H, join_filter_chars. apply forallb_filter_same.
  - apply join_filter_all.
Qed.

(** Cleaning works piece by piece: the result for a concatenation is the
    concatenation of the results, and a result is never longer than the
    input. *)
Theorem clean_phone_number_of_concatenation (s1 s2 : string) :
  clean_phone_number (PyStr (s1 ++ s2))
  = clean_phone_number (PyStr s1) ++ clean_phone_number (PyStr s2)
  /\ String.length (clean_phone_number (PyStr s1)) <= String.length s1.
Proof.
  unfold clean_phone_number; simpl py_str. split.
  - apply join_filter_app.
  - apply join_filter_length.
Qed.

(** An integer cell is sent as its decimal numeral; the sign of a negative
    one is dropped. *)
Theorem clean_phone_number_of_integer_cell (n : Z) :
  clean_phone_number (PyInt n) = py_str (PyInt (Z.abs n)).
Proof.
  unfold clean_phone_number, py_str.
  destruct n as [|p|p]; simpl Z.abs; unfold Z.to_int.
  - reflexivity.
  - apply join_filter_all. apply nilzero_string_of_uint_digits.
  - unfold NilZero.string_of_int.
    change (join_filter str_isdigit (String "-" ?s)) with (join_filter str_isdigit s).
    apply join_filter_all. apply nilzero_string_of_uint_digits.
Qed.

(** ** The credentials *)

Lemma init_ok_or_value_error
    (json : Type) (getenv : string -> option string) :
  (exists sender, @init json getenv = Ok sender)
  \/ @init json getenv
     = Raise (ValueError
                "Please set META_ACCESS_TOKEN and PHONE_NUMBER_ID in .env file").
Proof.
  unfold init.
  destruct (getenv "META_ACCESS_TOKEN") as [[|a t]|];
    destruct (getenv "PHONE_NUMBER_ID") as [[|b i]|];
    first [ right; reflexivity | left; eexists; reflexivity ].
Qed.

(** [WhatsAppSender()] succeeds exactly when both variables are set and
    not empty, and then holds their values unchanged; otherwise it raises the
    [ValueError] about the .env file. *)
Theorem init_succeeds_iff_credentials_set
    (json : Type) (getenv : string -> option string) (s : WhatsAppSender) :
  (@init json getenv = Ok s
   <-> getenv "META_ACCESS_TOKEN" = Some (access_token s)
       /\ access_token s <> ""
       /\ getenv "PHONE_NUMBER_ID" = Some (phone_number_id s)
       /\ phone_number_id s <> "")
  /\ ((exists sender, @init json getenv = Ok sender)
      \/ @init json getenv
         = Raise (ValueError
                    "Please set META_ACCESS_TOKEN and PHONE_NUMBER_ID in .env file")).
Proof.
  unfold init. destruct s as [token id]. cbn [access_token phone_number_id].
  destruct (getenv "META_ACCESS_TOKEN") as [[|a t]|];
    destruct (getenv "PHONE_NUMBER_ID") as [[|b i]|];
    (split;
     [ split;
       [ intros H; try discriminate H; injection H as <- <-;
         repeat split; discriminate
       | intros [Ht [Hnt [Hi Hni]]]; try discriminate Ht; try discriminate Hi;
         injection Ht as <-; injection Hi as <-;
         solve [reflexivity | now elim Hnt | now elim Hni] ]
     | first [ right; reflexivity | left; eexists; reflexivity ] ]).
Qed.

(** ** More on the dispatcher and the batch loop *)

Section More.

Variable json : Type.
Variable json_str : json -> string.
Variable transport : list event -> message_data_t -> post_result json.
Variable self : WhatsAppSender.

Local Abbreviation send' := (send_template_message json_str transport self).
Local Abbreviation endpoint' := (base_url self ++ "/messages").

(** A call returns exactly when the network answered with a status outside
    400..599 and a body that decodes; it then returns that body as it is,
    after one request and one info line. *)
Theorem send_returns_iff_accepted
    (to_phone template_name : pyobj) (params : option dict)
    (tr tr' : list event) (j : json) :
  send' to_phone template_name params tr = (Ok j, tr')
  <-> (exists r,
          transport tr (prepare_message_data (clean_phone_number to_phone)
                                             template_name params)
          = Responded r
          /\ ~ (400 <= status_code r < 600)
          /\ json_body r = Parsed j)
      /\ tr' = (tr
                ++ [Post endpoint' (headers self)
                         (prepare_message_data (clean_phone_number to_phone)
                                               template_name params);
                    LogInfo ("Message sent successfully to "
                             ++ clean_phone_number to_phone)])%list.
Proof.
  rewrite send_template_message_cases.
  destruct (transport tr _) as [r|m].
  - destruct ((400 <=? status_code r) && (status_code r <? 600)) eqn:Hst.
    + apply andb_true_iff in Hst as [Hlo Hhi].
      apply Nat.leb_le in Hlo. apply Nat.ltb_lt in Hhi.
      split.
      * destruct (json_body r); intros H; apply (f_equal fst) in H;
          discriminate H.
      * intros [[r' [Hr [Hno _]]] _]. injection Hr as <-. elim Hno. lia.
    + assert (Hno : ~ (400 <= status_code r < 600)).
      { intros [Hlo Hhi]. apply Nat.leb_le in Hlo. apply Nat.ltb_lt in Hhi.
        now rewrite Hlo, Hhi in Hst. }
      destruct (json_body r) as [j0|m] eqn:Hbody.
      * split.
        -- intros H. apply pair_equal_spec in H as [Hj Htr].
           injection Hj as ->. split.
           ++ exists r. now repeat split.
           ++ rewrite <- Htr, <- app_assoc. reflexivity.
        -- intros [[r' [Hr [_ Hb]]] ->]. injection Hr as <-.
           rewrite Hbody in Hb. injection Hb as ->.
           rewrite <- app_assoc. reflexivity.
      * split.
        -- intros H. apply (f_equal fst) in H. discriminate H.
        -- intros [[r' [Hr [_ Hb]]] _]. injection Hr as <-.
           rewrite Hbody in Hb. discriminate Hb.
  - split.
    + intros H. apply (f_equal fst) in H. discriminate H.
    + intros [[r [Hr _]] _]. discriminate Hr.
Qed.

Lemma process_excel_read_error (e : exn json) (tr0 : list event) :
  process_excel json_str transport self (Raise e) tr0
  = (Raise e, (tr0 ++ [LogError ("Excel processing error: " ++ exn_str e)])%list).
Proof. reflexivity. Qed.

Lemma process_excel_without_columns (df : DataFrame) (tr0 : list event) :
  has_required_columns df = false ->
  process_excel json_str transport self (Ok df) tr0
  = (Raise (ValueError
              "Excel must contain columns: ['phone_number', 'template_name']"),
     (tr0
      ++ [LogError
            ("Excel processing error: "
             ++ exn_str (@ValueError json
                  "Excel must contain columns: ['phone_number', 'template_name']"))])%list).
Proof.
  intros Hcols. unfold process_excel, try_except, bind. rewrite Hcols.
  reflexivity.
Qed.

Lemma process_excel_returns
    (df : DataFrame) (tr0 tr : list event) (results : results_t) :
  process_excel json_str transport self (Ok df) tr0 = (Ok results, tr) ->
  has_required_columns df = true
  /\ iterrows json_str transport self (columns df) (length (rows df)) 0
              (rows df) {| successful := 0; failed := 0; failures := [] |} tr0
     = (Ok results, tr).
Proof.
  intros H. destruct (has_required_columns df) eqn:Hcols.
  - split; [reflexivity|].
    rewrite (process_excel_with_columns _ _ _ _ _ _ Hcols) in H.
    destruct (iterrows _ _ _ _ _ _ _ _ _) as [[r|e] t].
    + exact H.
    + apply (f_equal fst) in H. discriminate H.
  - rewrite (process_excel_without_columns _ _ Hcols) in H.
    apply (f_equal fst) in H. discriminate H.
Qed.

(** [process_excel] raises exactly when the table could not be read or a
    required column is missing; the exception is then the read error itself,
    or the [ValueError] about the columns, and all that was done is to log
    one line about it. *)
Theorem process_excel_raises_iff
    (read_excel : result json DataFrame) (tr0 tr : list event) (e : exn json) :
  process_excel json_str transport self read_excel tr0 = (Raise e, tr)
  <-> (read_excel = Raise e
       \/ exists df,
           read_excel = Ok df
           /\ (~ In "phone_number" (columns df)
               \/ ~ In "template_name" (columns df))
           /\ e = ValueError
                    "Excel must contain columns: ['phone_number', 'template_name']")
      /\ tr = (tr0 ++ [LogError ("Excel processing error: " ++ exn_str e)])%list.
Proof.
  destruct read_excel as [df|e0].
  - destruct (has_required_columns df) eqn:Hcols.
    + pose proof (proj1 (has_required_columns_In df) Hcols) as [Hp Ht].
      rewrite (process_excel_with_columns _ _ _ _ _ _ Hcols).
      destruct (iterrows_summary _ json_str transport self (columns df)
                  (length (rows df)) (rows df) 0
                  {| successful := 0; failed := 0; failures := [] |} tr0)
        as [r [t [Hrun _]]].
      rewrite Hrun. split.
      * intros H. apply (f_equal fst) in H. discriminate H.
      * intros [[H|[df' [Hdf [[Hno|Hno] _]]]] _].
        -- discriminate H.
        -- injection Hdf as <-. now elim Hno.
        -- injection Hdf as <-. now elim Hno.
    + rewrite (process_excel_without_columns _ _ Hcols). split.
      * intros H. apply pair_equal_spec in H as [He Htr].
        injection He as <-. split; [|now rewrite <- Htr].
        right. exists df. repeat split.
        destruct (in_dec string_dec "phone_number" (columns df)) as [Hp|Hp];
          [|now left].
        destruct (in_dec string_dec "template_name" (columns df)) as [Ht|Ht];
          [|now right].
        rewrite (proj2 (has_required_columns_In df) (conj Hp Ht)) in Hcols.
        discriminate Hcols.
      * intros [[H|[df' [_ [_ ->]]]] ->]; [discriminate H|reflexivity].
  - rewrite process_excel_read_error. split.
    + intros H. apply pair_equal_spec in H as [He Htr].
      injection He as <-. split; [now left|now rewrite <- Htr].
    + intros [[H|[df [H _]]] ->]; [|discriminate H].
      injection H as <-. reflexivity.
Qed.

Lemma process_row_posts
    (cols : list string) (total_rows index : nat) (row : row_t)
    (results : results_t) (tr : list event) :
  posts (snd (process_row json_str transport self cols total_rows index row
                          results tr))
  = (posts tr ++ [row_post self cols row])%list.
Proof.
  rewrite process_row_cases.
  destruct (send_template_message_posts_once _ json_str transport self
              (row "phone_number") (row "template_name")
              (Some (row_params cols row)) tr) as [rest [Htr Hrest]].
  unfold row_post.
  destruct (send' _ _ _ tr) as [[j|e] tr1]; cbn [snd] in *; subst tr1;
    unfold posts in *.
  - destruct (index <? total_rows - 1);
      rewrite !filter_app; cbn [filter is_post]; rewrite Hrest;
      cbn [filter is_post]; now rewrite app_nil_r.
  - rewrite !filter_app; cbn [filter is_post]; rewrite Hrest;
      cbn [filter is_post]; now rewrite app_nil_r.
Qed.

Lemma iterrows_posts
    (cols : list string) (total_rows : nat) (rs : list row_t)
    (index : nat) (results : results_t) (tr : list event) :
  posts (snd (iterrows json_str transport self cols total_rows index rs
                       results tr))
  = (posts tr ++ map (row_post self cols) rs)%list.
Proof.
  revert index results tr.
  induction rs as [|row rs IH]; intros index results tr.
  - cbn. now rewrite app_nil_r.
  - cbn [iterrows map]. unfold bind.
    pose proof (process_row_posts cols total_rows index row results tr) as Hp.
    destruct (process_row_one_counter _ json_str transport self cols total_rows
                index row results tr) as [r1 [tr1 [Hrow _]]].
    rewrite Hrow in *. cbn [snd] in Hp.
    rewrite IH, Hp, <- app_assoc. reflexivity.
Qed.

(** A run over a table with the required columns makes one request per row,
    in the order of the table: each goes to the messages endpoint of the
    configured account with the bearer token, and carries the cleaned phone
    number, the template name and the parameters of its row.  A row whose
    cleaned number is empty is requested like the others. *)
Theorem requests_follow_the_rows (df : DataFrame) (tr0 : list event) :
  In "phone_number" (columns df) ->
  In "template_name" (columns df) ->
  posts (snd (process_excel json_str transport self (Ok df) tr0))
  = (posts tr0 ++ map (row_post self (columns df)) (rows df))%list.
Proof.
  intros Hp Ht.
  rewrite process_excel_with_columns
    by (apply has_required_columns_In; now split).
  pose proof (iterrows_posts (columns df) (length (rows df)) (rows df) 0
                {| successful := 0; failed := 0; failures := [] |} tr0) as H.
  destruct (iterrows _ _ _ _ _ _ _ _ _) as [[r|e] t]; cbn [snd] in *.
  - exact H.
  - rewrite posts_app, H. cbn. now rewrite app_nil_r.
Qed.

Lemma send_template_message_logs_no_progress
    (to_phone template_name : pyobj) (params : option dict)
    (tr : list event) :
  filter is_progress (snd (send' to_phone template_name params tr))
  = filter is_progress tr.
Proof.
  rewrite send_template_message_cases.
  destruct (transport tr _) as [r|m];
    [destruct ((400 <=? status_code r) && (status_code r <? 600));
     destruct (json_body r)|];
    cbn [snd]; rewrite ?filter_app; cbn; now rewrite ?app_nil_r.
Qed.

(** The effects of one turn of the loop, by the outcome of its send. *)
Lemma process_row_effects
    (cols : list string) (total_rows index : nat) (row : row_t)
    (results : results_t) (tr : list event) :
  exists results1 tr1,
    process_row json_str transport self cols total_rows index row results tr
    = (Ok results1, tr1)
    /\ ((results1 = {| successful := successful results + 1;
                       failed := failed results;
                       failures := failures results |}
         /\ sleeps tr1
            = (sleeps tr
               ++ (if index <? total_rows - 1 then [Sleep 1] else []))%list
         /\ filter is_progress tr1
            = (filter is_progress tr
               ++ [progress_line total_rows (index + 1)])%list)
        \/ (exists e : exn json,
               results1
               = {| successful := successful results;
                    failed := failed results + 1;
                    failures :=
                      (failures results
                       ++ [{| phone := row "phone_number";
                              error := exn_str e |}])%list |}
               /\ sleeps tr1 = sleeps tr
               /\ filter is_progress tr1 = filter is_progress tr)).
Proof.
  rewrite process_row_cases.
  pose proof (send_template_message_never_sleeps _ json_str transport self
                (row "phone_number") (row "template_name")
                (Some (row_params cols row)) tr) as Hs.
  pose proof (send_template_message_logs_no_progress
                (row "phone_number") (row "template_name")
                (Some (row_params cols row)) tr) as Hp.
  destruct (send' _ _ _ tr) as [[j|e] tr1]; cbn [snd] in *;
    do 2 eexists; (split; [reflexivity|]).
  - left. split; [reflexivity|]. split.
    + rewrite sleeps_app, Hs. f_equal.
      destruct (index <? total_rows - 1); reflexivity.
    + rewrite filter_app, Hp. f_equal. cbn [filter].
      assert (Hline : is_progress
                        (LogInfo ("Progress: " ++ str_of_nat (index + 1) ++ "/"
                                  ++ str_of_nat total_rows)) = true)
        by apply prefix_append.
      rewrite Hline. destruct (index <? total_rows - 1); reflexivity.
  - right. exists e. split; [reflexivity|]. split.
    + rewrite sleeps_app, Hs. cbn. now rewrite app_nil_r.
    + rewrite filter_app, Hp. cbn. now rewrite app_nil_r.
Qed.

(** What the loop adds to the summary, to the pauses and to the progress
    lines. *)
Lemma iterrows_invariants (cols : list string) (total_rows : nat) (rs : list row_t) :
  forall (index : nat) (results0 results : results_t) (tr0 tr : list event),
    index + length rs = total_rows ->
    iterrows json_str transport self cols total_rows index rs results0 tr0
    = (Ok results, tr) ->
    exists entries pauses progress,
      failures results = (failures results0 ++ entries)%list
      /\ failed results = failed results0 + length entries
      /\ successful results + length entries
         = successful results0 + length rs
      /\ subseq (map phone entries) (map (fun row => row "phone_number") rs)
      /\ sleeps tr = (sleeps tr0 ++ pauses)%list
      /\ Forall (eq (Sleep 1)) pauses
      /\ length pauses + length entries <= length rs
      /\ (1 <= length rs ->
          length rs <= length pauses + length entries + 1
          /\ length pauses + 1 <= length rs)
      /\ filter is_progress tr = (filter is_progress tr0 ++ progress)%list
      /\ length progress + length entries = length rs
      /\ (entries = [] ->
          progress
          = map (progress_line total_rows) (seq (index + 1) (length rs))).
Proof.
  induction rs as [|row rest IH]; intros index results0 results tr0 tr Hlen Hrun.
  - cbn in Hrun. unfold ret in Hrun.
    apply pair_equal_spec in Hrun as [Hr Htr]. injection Hr as <-. subst tr.
    exists [], [], []. cbn. rewrite !app_nil_r.
    repeat split; try lia; constructor.
  - cbn [iterrows] in Hrun. unfold bind in Hrun.
    destruct (process_row_effects cols total_rows index row results0 tr0)
      as [results1 [tr1 [Hrow Hcase]]].
    rewrite Hrow in Hrun. cbn [length] in Hlen.
    destruct (IH (S index) results1 results tr1 tr ltac:(lia) Hrun)
      as [entries [pauses [progress
           [Hfl [Hfailed [Hsucc [Hsub [Hsl [Hall [Hle [Hge [Hpr [Hplen Hpeq]]]]]]]]]]]]].
    destruct Hcase as [[-> [Hs1 Hp1]]|[e [-> [Hs1 Hp1]]]];
      cbn [successful failed failures] in *.
    + exists entries,
        ((if index <? total_rows - 1 then [Sleep 1] else []) ++ pauses)%list,
        (progress_line total_rows (index + 1) :: progress).
      cbn [length map].
      assert (Hcond : length (if index <? total_rows - 1 then [Sleep 1] else [])
                      = if length rest =? 0 then 0 else 1).
      { destruct (Nat.ltb_spec index (total_rows - 1));
          destruct (Nat.eqb_spec (length rest) 0); cbn; lia. }
      rewrite length_app, Hcond.
      repeat split.
      * exact Hfl.
      * exact Hfailed.
      * lia.
      * now apply subseq_skip.
      * rewrite Hsl, Hs1, <- app_assoc. reflexivity.
      * apply Forall_app. split; [|exact Hall].
        destruct (index <? total_rows - 1); repeat constructor.
      * destruct (Nat.eqb_spec (length rest) 0); lia.
      * destruct (Nat.eqb_spec (length rest) 0); lia.
      * destruct (Nat.eqb_spec (length rest) 0); lia.
      * rewrite Hpr, Hp1, <- app_assoc. reflexivity.
      * lia.
      * intros Hnil. cbn [seq map]. f_equal.
        rewrite (Hpeq Hnil). now replace (S index + 1) with (S (index + 1)) by lia.
    + exists ({| phone := row "phone_number"; error := exn_str e |} :: entries),
        pauses, progress.
      cbn [length map phone].
      repeat split.
      * rewrite Hfl, <- app_assoc. reflexivity.
      * lia.
      * lia.
      * now apply subseq_keep.
      * now rewrite Hsl, Hs1.
      * exact Hall.
      * lia.
      * lia.
      * lia.
      * now rewrite Hpr, Hp1.
      * lia.
      * intros Hnil. discriminate Hnil.
Qed.

(** The entries of [failures] come in the order of the table: their phones
    are the [phone_number] cells of some of the rows, the order kept. *)
Theorem failures_follow_table_order
    (df : DataFrame) (tr0 tr : list event) (results : results_t) :
  process_excel json_str transport self (Ok df) tr0 = (Ok results, tr) ->
  subseq (map phone (failures results))
         (map (fun row => row "phone_number") (rows df)).
Proof.
  intros H. apply process_excel_returns in H as [_ Hrun].
  destruct (iterrows_invariants (columns df) (length (rows df)) (rows df) 0
              _ _ _ _ eq_refl Hrun)
    as [entries [_ [_ [Hfl [_ [_ [Hsub _]]]]]]].
  cbn in Hfl. now rewrite Hfl.
Qed.


(** A run logs one progress line per successful send; when no row failed
    these are "Progress: 1/n" up to "Progress: n/n" in this order, [n] being
    the number of rows. *)
Theorem progress_lines_of_a_run
    (df : DataFrame) (tr0 tr : list event) (results : results_t) :
  process_excel json_str transport self (Ok df) tr0 = (Ok results, tr) ->
  exists progress,
    filter is_progress tr = (filter is_progress tr0 ++ progress)%list
    /\ length progress = successful results
    /\ (failed results = 0 ->
        progress
        = map (progress_line (length (rows df))) (seq 1 (length (rows df)))).
Proof.
  intros H. apply process_excel_returns in H as [_ Hrun].
  destruct (iterrows_invariants (columns df) (length (rows df)) (rows df) 0
              _ _ _ _ eq_refl Hrun)
    as [entries [_ [progress
         [_ [Hfailed [Hsucc [_ [_ [_ [_ [_ [Hpr [Hplen Hpeq]]]]]]]]]]]]].
  cbn [successful failed] in *.
  exists progress. repeat split; [exact Hpr|lia|].
  intros Hzero. apply Hpeq. destruct entries; [reflexivity|cbn in Hfailed; lia].
Qed.

End More.

(** ** [main] *)

Section MainProperties.

Variable json : Type.
Variable json_str : json -> string.
Variable transport : list event -> message_data_t -> post_result json.

(** When a credential is absent or empty, or the table cannot be read or
    lacks a required column, [main] prints one line, "Error: " and the text
    of the exception after a line feed, and makes no request. *)
Theorem main_reports_a_fatal_error
    (getenv : string -> option string) (read_excel : result json DataFrame)
    (tr0 : list event) :
  (forall sender, @init json getenv <> Ok sender)
  \/ (forall df,
         read_excel = Ok df ->
         ~ In "phone_number" (columns df) \/ ~ In "template_name" (columns df)) ->
  exists e : exn json,
    fst (main json_str transport getenv read_excel tr0)
    = [nl ++ "Error: " ++ exn_str e]
    /\ posts (snd (main json_str transport getenv read_excel tr0)) = posts tr0
    /\ (e = ValueError
              "Please set META_ACCESS_TOKEN and PHONE_NUMBER_ID in .env file"
        \/ e = ValueError
                 "Excel must contain columns: ['phone_number', 'template_name']"
        \/ read_excel = Raise e).
Proof.
  intros Hfatal. unfold main.
  destruct (init_ok_or_value_error json getenv) as [[sender Hinit]|Hinit];
    rewrite Hinit.
  - destruct Hfatal as [Hno|Htable]; [now elim (Hno sender)|].
    destruct read_excel as [df|e0].
    + assert (Hcols : has_required_columns df = false).
      { destruct (has_required_columns df) eqn:H; [|reflexivity].
        apply has_required_columns_In in H. destruct (Htable df eq_refl); tauto. }
      rewrite (process_excel_without_columns _ json_str transport sender _ tr0 Hcols).
      eexists. cbn [fst snd]. split; [reflexivity|]. split.
      * rewrite posts_app. cbn. now rewrite app_nil_r.
      * right. left. reflexivity.
    + rewrite process_excel_read_error.
      exists e0. cbn [fst snd]. split; [reflexivity|]. split.
      * rewrite posts_app. cbn. now rewrite app_nil_r.
      * right. right. reflexivity.
  - eexists. cbn [fst snd]. split; [reflexivity|]. split; [reflexivity|].
    left. reflexivity.
Qed.

(** With both credentials set and a table that has the required columns,
    [main] prints the summary of the run: the three head lines with the two
    counters, which add up to the number of rows, and, when a row failed, the
    line "Failed numbers:" followed by one line per failed row. *)
Theorem main_prints_the_summary
    (getenv : string -> option string) (sender : WhatsAppSender)
    (df : DataFrame) (tr0 : list event) :
  @init json getenv = Ok sender ->
  In "phone_number" (columns df) ->
  In "template_name" (columns df) ->
  exists results tr,
    process_excel json_str transport sender (Ok df) tr0 = (Ok results, tr)
    /\ main json_str transport getenv (Ok df) tr0 = (summary_lines results, tr)
    /\ successful results + failed results = length (rows df)
    /\ length (summary_lines results)
       = if failed results =? 0 then 3 else failed results + 4.
Proof.
  intros Hinit Hp Ht. unfold main. rewrite Hinit.
  rewrite process_excel_with_columns
    by (apply has_required_columns_In; now split).
  destruct (iterrows_summary _ json_str transport sender (columns df)
              (length (rows df)) (rows df) 0
              {| successful := 0; failed := 0; failures := [] |} tr0)
    as [results [tr [Hrun [Hsum [Hlen _]]]]].
  rewrite Hrun. exists results, tr. cbn in Hsum, Hlen.
  repeat split; try lia.
  unfold summary_lines. rewrite length_app.
  destruct (failures results) as [|entry entries] eqn:Hfl; cbn [length] in *.
  - replace (failed results) with 0 by lia. reflexivity.
  - rewrite length_map. cbn [length].
    destruct (Nat.eqb_spec (failed results) 0); lia.
Qed.

End MainProperties.

(** ** Instances on the sample data *)

Lemma requests_follow_the_rows_witness :
  In "phone_number" (columns Sample.contacts)
  /\ In "template_name" (columns Sample.contacts)
  /\ map (fun ev => match ev with Post _ _ data => to data | _ => "" end)
         (posts (snd (process_excel Sample.json_str Sample.unreachable
                                    Sample.sender (Ok Sample.contacts) [])))
     = ["15551234567"; ""; "919042014905"].
Proof.
  assert (Hp : In "phone_number" (columns Sample.contacts))
    by (left; reflexivity).
  assert (Ht : In "template_name" (columns Sample.contacts))
    by (right; right; left; reflexivity).
  split; [exact Hp|]. split; [exact Ht|].
  rewrite (requests_follow_the_rows Sample.json Sample.json_str
             Sample.unreachable Sample.sender Sample.contacts [] Hp Ht).
  reflexivity.
Defined.

Lemma failures_follow_table_order_witness :
  exists results tr,
    process_excel Sample.json_str Sample.unreachable Sample.sender
                  (Ok Sample.contacts) []
    = (Ok results, tr)
    /\ subseq (map phone (failures results))
              (map (fun row => row "phone_number") (rows Sample.contacts)).
Proof.
  do 2 eexists. split.
  - vm_compute. reflexivity.
  - eapply (failures_follow_table_order Sample.json Sample.json_str
              Sample.unreachable Sample.sender Sample.contacts []).
    vm_compute. reflexivity.
Defined.


Lemma progress_lines_of_a_run_witness :
  exists results tr,
    process_excel Sample.json_str Sample.accept_all Sample.sender
                  (Ok Sample.contacts) []
    = (Ok results, tr)
    /\ filter is_progress tr
       = [LogInfo "Progress: 1/3"; LogInfo "Progress: 2/3";
          LogInfo "Progress: 3/3"].
Proof.
  assert (Hrun : process_excel Sample.json_str Sample.accept_all Sample.sender
                               (Ok Sample.contacts) []
                 = (Ok {| successful := 3; failed := 0; failures := [] |},
                    snd (process_excel Sample.json_str Sample.accept_all
                                       Sample.sender (Ok Sample.contacts) [])))
    by (vm_compute; reflexivity).
  destruct (progress_lines_of_a_run Sample.json Sample.json_str
              Sample.accept_all Sample.sender Sample.contacts [] _ _ Hrun)
    as [progress [Hpr [_ Hall]]].
  do 2 eexists. split; [exact Hrun|].
  rewrite Hpr, (Hall eq_refl). reflexivity.
Defined.

Lemma main_reports_a_fatal_error_witness :
  (forall sender, @init Sample.json Sample.getenv_empty_token <> Ok sender)
  /\ exists e : exn Sample.json,
      fst (main Sample.json_str Sample.accept_all Sample.getenv_empty_token
                (Ok Sample.contacts) [])
      = [nl ++ "Error: " ++ exn_str e]
      /\ posts (snd (main Sample.json_str Sample.accept_all
                          Sample.getenv_empty_token (Ok Sample.contacts) []))
         = [].
Proof.
  assert (Hno : forall sender,
             @init Sample.json Sample.getenv_empty_token <> Ok sender)
    by (intros sender H; discriminate H).
  split; [exact Hno|].
  destruct (main_reports_a_fatal_error Sample.json Sample.json_str
              Sample.accept_all Sample.getenv_empty_token (Ok Sample.contacts)
              [] (or_introl Hno))
    as [e [Hline [Hposts _]]].
  exists e. split; [exact Hline|exact Hposts].
Defined.

Lemma main_prints_the_summary_witness :
  @init Sample.json Sample.getenv_complete = Ok Sample.sender
  /\ In "phone_number" (columns Sample.contacts)
  /\ In "template_name" (columns Sample.contacts)
  /\ exists results tr,
      main Sample.json_str Sample.reject_empty_recipient
           Sample.getenv_complete (Ok Sample.contacts) []
      = (summary_lines results, tr)
      /\ successful results + failed results = 3.
Proof.
  assert (Hp : In "phone_number" (columns Sample.contacts))
    by (left; reflexivity).
  assert (Ht : In "template_name" (columns Sample.contacts))
    by (right; right; left; reflexivity).
  split; [reflexivity|]. split; [exact Hp|]. split; [exact Ht|].
  destruct (main_prints_the_summary Sample.json Sample.json_str
              Sample.reject_empty_recipient Sample.getenv_complete
              Sample.sender Sample.contacts [] eq_refl Hp Ht)
    as [results [tr [_ [Hmain [Hsum _]]]]].
  exists results, tr. split; [exact Hmain|exact Hsum].
Defined.

(** What [main] prints for the sample table when the second row is
    rejected. *)
Example main_output_with_one_failure :
  fst (main Sample.json_str Sample.reject_empty_recipient
            Sample.getenv_complete (Ok Sample.contacts) [])
  = [nl ++ "Processing Summary:";
     "Successfully sent: 2";
     "Failed: 1";
     nl ++ "Failed numbers:";
     "- not-a-number: Failed to send message to : {'error': {'message': 'Invalid parameter'}}"].
Proof. vm_compute. reflexivity. Qed.

(** ** The parameters a row puts into its request *)

(** In a table with distinct column labels, the request for a row carries
    as body parameters the texts of the row's present cells outside
    [phone_number] and [template_name], in the order of the columns; when the
    row has no such cell the request carries no components at all. *)
Theorem row_request_parameters (cols : list string) (row : row_t) :
  NoDup cols ->
  components
    (template
       (prepare_message_data (clean_phone_number (row "phone_number"))
                             (row "template_name")
                             (Some (row_params cols row))))
  = match filter (is_parameter row) cols with
    | [] => None
    | present =>
        Some [{| component_type := "body";
                 parameters :=
                   map (fun col =>
                          {| parameter_type := "text";
                             text := py_str (row col) |})
                       present |}]
    end.
Proof.
  intros Hnd. unfold row_params.
  rewrite row_params_from; [|exact Hnd|intros col _ []].
  cbn [app prepare_message_data template components].
  destruct (filter (is_parameter row) cols) as [|col present]; [reflexivity|].
  cbn [map truthy]. unfold body_component, values.
  cbn [map snd]. now rewrite !map_map.
Qed.

Lemma row_request_parameters_witness :
  NoDup (columns Sample.contacts)
  /\ components
       (template
          (prepare_message_data
             (clean_phone_number (Sample.ann "phone_number"))
             (Sample.ann "template_name")
             (Some (row_params (columns Sample.contacts) Sample.ann))))
     = Some [{| component_type := "body";
                parameters := [{| parameter_type := "text"; text := "Ann" |};
                               {| parameter_type := "text"; text := "42" |}] |}].
Proof.
  assert (Hnd : NoDup (columns Sample.contacts)).
  { repeat constructor; simpl; intuition discriminate. }
  split; [exact Hnd|].
  rewrite (row_request_parameters _ Sample.ann Hnd).
  reflexivity.
Defined.
